(** * Account lifecycle of django-couchdb-utils

    A shallow embedding of the user document of
    [django_couchdb_utils/auth/models.py] and of the registration workflow
    of [registration/models.py]: the CouchDB database is a list of
    documents, store calls run in a small state-and-exception monad that
    also counts round trips to the database, wall-clock time is an integer
    number of seconds, and the hash functions the code delegates to
    (SHA-1 through [sha_constructor] and Django's [get_hexdigest]) are
    parameters of a Section. *)

From Stdlib Require Import String Ascii List Bool ZArith Lia.
Import ListNotations.
Open Scope string_scope.

(* ------------------------------------------------------------------ *)
(** ** The [User] document *)

(** [class User(Document)]; [uid] and [rev] are CouchDB's [_id] and
    [_rev] (absent until the first save), [activation_key] is the dynamic
    property that [create_profile] attaches and [activate_user] deletes ([None] when the
    document has no such property).  [DateTimeProperty] values are seconds;
    a [StringProperty] that is unset and one that holds the empty string
    are both [""] here, which couchdbkit's validation treats alike. *)
Record User := mkUser {
  uid : option nat;
  rev : option nat;
  username : string;
  first_name : option string;
  last_name : option string;
  email : option string;
  password : string;
  is_staff : bool;
  is_active : bool;
  is_superuser : bool;
  last_login : option Z;
  date_joined : Z;
  activation_key : option string
}.

(** [User()]: the property defaults, with [date_joined] defaulting to
    [datetime.utcnow] at construction time [utcnow]. *)
Definition User_new (utcnow : Z) : User :=
  {| uid := None; rev := None; username := ""; first_name := None; last_name := None;
     email := None; password := ""; is_staff := false; is_active := true;
     is_superuser := false; last_login := None; date_joined := utcnow;
     activation_key := None |}.

Definition set_uid (u : User) (i : option nat) : User :=
  {| uid := i; rev := rev u; username := username u; first_name := first_name u;
     last_name := last_name u; email := email u; password := password u;
     is_staff := is_staff u; is_active := is_active u;
     is_superuser := is_superuser u; last_login := last_login u;
     date_joined := date_joined u; activation_key := activation_key u |}.

Definition set_username (u : User) (s : string) : User :=
  {| uid := uid u; rev := rev u; username := s; first_name := first_name u;
     last_name := last_name u; email := email u; password := password u;
     is_staff := is_staff u; is_active := is_active u;
     is_superuser := is_superuser u; last_login := last_login u;
     date_joined := date_joined u; activation_key := activation_key u |}.

Definition set_email (u : User) (s : option string) : User :=
  {| uid := uid u; rev := rev u; username := username u; first_name := first_name u;
     last_name := last_name u; email := s; password := password u;
     is_staff := is_staff u; is_active := is_active u;
     is_superuser := is_superuser u; last_login := last_login u;
     date_joined := date_joined u; activation_key := activation_key u |}.

Definition set_password_field (u : User) (s : string) : User :=
  {| uid := uid u; rev := rev u; username := username u; first_name := first_name u;
     last_name := last_name u; email := email u; password := s;
     is_staff := is_staff u; is_active := is_active u;
     is_superuser := is_superuser u; last_login := last_login u;
     date_joined := date_joined u; activation_key := activation_key u |}.

Definition set_is_active (u : User) (b : bool) : User :=
  {| uid := uid u; rev := rev u; username := username u; first_name := first_name u;
     last_name := last_name u; email := email u; password := password u;
     is_staff := is_staff u; is_active := b;
     is_superuser := is_superuser u; last_login := last_login u;
     date_joined := date_joined u; activation_key := activation_key u |}.

Definition set_activation_key (u : User) (k : option string) : User :=
  {| uid := uid u; rev := rev u; username := username u; first_name := first_name u;
     last_name := last_name u; email := email u; password := password u;
     is_staff := is_staff u; is_active := is_active u;
     is_superuser := is_superuser u; last_login := last_login u;
     date_joined := date_joined u; activation_key := k |}.

Definition set_rev (u : User) (r : option nat) : User :=
  {| uid := uid u; rev := r; username := username u; first_name := first_name u;
     last_name := last_name u; email := email u; password := password u;
     is_staff := is_staff u; is_active := is_active u;
     is_superuser := is_superuser u; last_login := last_login u;
     date_joined := date_joined u; activation_key := activation_key u |}.

(* ------------------------------------------------------------------ *)
(** ** The database and the store monad *)

(** The database: its documents in view order, the next [_id] CouchDB
    hands out, and the number of requests made to it so far. *)
Record World := mkWorld {
  docs : list User;
  next_id : nat;
  accesses : nat
}.

(** The exceptions these paths can raise: [Exception('This username is
    already in use')] from [User.save]; couchdbkit's [BadValueError] for a
    required property left empty and [ResourceConflict] for a write whose
    [_rev] is not the stored one; the [NameError] of the undefined name
    [user] in [create_inactive_user]; the [AttributeError] of a method
    the object's class does not have; and Django's [ValueError] for an
    unknown hash algorithm. *)
Inductive Exn :=
  UsernameInUse | BadValueError | ResourceConflict | NameError
| AttributeError | ValueError.

Definition M (A : Type) : Type := World -> (Exn + A) * World.

Definition ret {A} (a : A) : M A := fun w => (inr a, w).
Definition raise {A} (e : Exn) : M A := fun w => (inl e, w).
Definition bind {A B} (m : M A) (k : A -> M B) : M B :=
  fun w => match m w with
           | (inl e, w') => (inl e, w')
           | (inr a, w') => k a w'
           end.

Notation "x <- m ;; k" := (bind m (fun x => k))
  (at level 61, m at next level, right associativity).

(** One request to the database, reading or changing the documents. *)
Definition request {A} (f : World -> A * list User * nat) : M A :=
  fun w => let '(a, ds, n) := f w in
           (inr a, {| docs := ds; next_id := n; accesses := S (accesses w) |}).

(** The CouchDB views the code queries.  Their map functions live in
    design documents that are not part of the sources; the rows are
    modelled from the spec (section 9: composite keys [[username,
    is_active]]; section 6: exact lookup by activation key). *)

(** Modelled from the spec: the map function of [users_by_username],
    emitting the composite key [[doc.username, doc.is_active]]. *)
Definition users_by_username_key (u : User) : string * bool :=
  (username u, is_active u).

(** Modelled from the spec: the map function of
    [registration/users_by_activation_key], emitting the document's
    activation key (documents without one emit nothing). *)
Definition users_by_activation_key_key (u : User) : option string :=
  activation_key u.

Definition first {A} (l : list A) : option A :=
  match l with [] => None | x :: _ => Some x end.

Definition rows_with_key (ds : list User) (name : string) (b : bool)
  : list User :=
  filter (fun u => let '(n, a) := users_by_username_key u in
                   String.eqb n name && Bool.eqb a b) ds.

(** [User.get_user(username, is_active)]: with [is_active=None] the range
    [[username, False]] .. [[username, True]], whose rows CouchDB collates
    with [false] before [true] (ties in document order); otherwise the
    single key [[username, is_active]].  [r.first() if r else None]. *)
Definition get_user (name : string) (flt : option bool) : M (option User) :=
  request (fun w =>
    let rows := match flt with
                | None => (rows_with_key (docs w) name false
                           ++ rows_with_key (docs w) name true)%list
                | Some b => rows_with_key (docs w) name b
                end in
    (first rows, docs w, next_id w)).

(** [User.view('registration/users_by_activation_key', key=k)]. *)
Definition view_by_activation_key (k : string) : M (option User) :=
  request (fun w =>
    (first (filter (fun u => match users_by_activation_key_key u with
                             | Some k' => String.eqb k' k
                             | None => false end) (docs w)),
     docs w, next_id w)).

(** [User.all_users()]: every row of [users_by_username].  The loop that
    consumes it does not depend on the row order, so the rows are the
    documents in store order. *)
Definition all_users : M (list User) :=
  request (fun w => (docs w, docs w, next_id w)).

Definition same_id (i : nat) (u : User) : bool :=
  match uid u with Some j => Nat.eqb i j | None => false end.

Definition rev_of (u : option User) : option nat :=
  match u with Some v => rev v | None => None end.

Definition rev_eqb (a b : option nat) : bool :=
  match a, b with
  | Some x, Some y => Nat.eqb x y
  | None, None => true
  | _, _ => false
  end.

(** [db.save_doc(doc)] at the store: a document without [_id] gets a
    fresh one and is added at revision 1; a document with an [_id] is
    written only when its [_rev] is the stored document's (both absent for
    a new id), and then gets the next revision; otherwise CouchDB answers
    with a conflict.  The saved object carries its [_id] and [_rev]. *)
Definition write_doc (u : User) : M User :=
  fun w =>
    match uid u with
    | None =>
        let u' := set_rev (set_uid u (Some (next_id w))) (Some 1) in
        (inr u', {| docs := (docs w ++ [u'])%list; next_id := S (next_id w);
                    accesses := S (accesses w) |})
    | Some i =>
        let stored := rev_of (first (filter (same_id i) (docs w))) in
        if rev_eqb stored (rev u) then
          let u' := set_rev u (Some (S (match stored with Some r => r | None => 0 end))) in
          let ds := if existsb (same_id i) (docs w)
                    then map (fun v => if same_id i v then u' else v) (docs w)
                    else (docs w ++ [u'])%list in
          (inr u', {| docs := ds; next_id := next_id w;
                      accesses := S (accesses w) |})
        else
          (inl ResourceConflict, {| docs := docs w; next_id := next_id w;
                                    accesses := S (accesses w) |})
    end.

(** [Document.delete()]: removes the stored document with this [_id]. *)
Definition delete_doc (u : User) : M unit :=
  request (fun w =>
    (tt, match uid u with
         | Some i => filter (fun v => negb (same_id i v)) (docs w)
         | None => docs w
         end, next_id w)).

(** [User.check_username]. *)
Definition check_username (u : User) : M bool :=
  r <- get_user (username u) None ;;
  ret (match uid u, r with
       | None, _ => true
       | _, None => true
       | Some i, Some v =>
           match uid v with Some j => Nat.eqb j i | None => false end
       end).

(** couchdbkit's [Document.validate()] for [User]: the properties declared
    [required=True], [username] and [password], must not be empty. *)
Definition validate (u : User) : bool :=
  negb (String.eqb (username u) "") && negb (String.eqb (password u) "").

(** [User.save]: [check_username], then couchdbkit's [Document.save],
    which validates the document before writing it. *)
Definition save (u : User) : M User :=
  ok <- check_username u ;;
  if negb ok then raise UsernameInUse else
  if negb (validate u) then raise BadValueError else
  write_doc u.

(* ------------------------------------------------------------------ *)
(** ** Activation keys and their expiry *)

Definition is_lower_hex (c : ascii) : bool :=
  let n := nat_of_ascii c in
  (Nat.leb 48 n && Nat.leb n 57) || (Nat.leb 97 n && Nat.leb n 102).

Fixpoint all_hex (s : string) : bool :=
  match s with
  | EmptyString => true
  | String c s' => is_lower_hex c && all_hex s'
  end.

(** [SHA1_RE.search(s)] for [SHA1_RE = re.compile('^[a-f0-9]{40}$')]:
    [^] anchors at the start, and Python's [$] matches at the end of the
    string or just before a newline that ends it. *)
Definition sha1_re_search (s : string) : bool :=
  (Nat.eqb (String.length s) 40 && all_hex s)
  || (Nat.eqb (String.length s) 41 && all_hex (substring 0 40 s)
      && match String.get 40 s with
         | Some c => Ascii.eqb c (ascii_of_nat 10)
         | None => false
         end).

(** The pattern [^[a-f0-9]{40}$] as the spec reads it, a match of the
    whole key: exactly forty lowercase hex digits. *)
Definition sha1_pattern_full (s : string) : bool :=
  Nat.eqb (String.length s) 40 && all_hex s.

(** Python truthiness of [getattr(self, 'activation_key', False)]:
    an absent property is falsy, and so is the empty string. *)
Definition key_truthy (k : option string) : bool :=
  match k with
  | Some s => negb (String.eqb s "")
  | None => false
  end.

(** [RegistrationUser.activation_key_expired], at wall-clock time [now]
    with [settings.ACCOUNT_ACTIVATION_DAYS = days]:
    [getattr(self, 'activation_key', False) or
     (self.date_joined + timedelta(days=days) <= datetime.now())],
    read for its truth value, as its callers do. *)
Definition activation_key_expired (now days : Z) (u : User) : bool :=
  key_truthy (activation_key u) || (date_joined u + days * 86400 <=? now)%Z.

(** The expiry predicate in the words of the spec (section 4.3): already
    activated (key absent or the [ACTIVATED] sentinel), or
    [now >= date_joined + activation_window_days]. *)
Definition expired_spec (now days : Z) (u : User) : bool :=
  match activation_key u with
  | None => true
  | Some k => String.eqb k "ACTIVATED"
  end || (date_joined u + days * 86400 <=? now)%Z.

(** The Python values [activate_user] returns: [False], [None] (falling
    off the end of the function) or the user object. *)
Inductive PyResult := PyFalse | PyNone | PyUser (u : User).

(** The class of a Python object holding a user document: [User] from
    [django_couchdb_utils.auth.models], or its subclass [RegistrationUser],
    the only one of the two that defines [activation_key_expired]. *)
Inductive PyClass := ClsUser | ClsRegistrationUser.

(** The method call [user.activation_key_expired()] on an object of
    class [cls]: on a plain [User] the attribute lookup fails. *)
Definition call_activation_key_expired (cls : PyClass) (now days : Z) (u : User)
  : M bool :=
  match cls with
  | ClsRegistrationUser => ret (activation_key_expired now days u)
  | ClsUser => raise AttributeError
  end.

(** [activate_user(activation_key)].  The lookup is the [try] block of
    lines 40-44 (the source has no [except] clause; the block is read as
    its body).  The rows of [User.view] are [User] objects, so the
    method call of line 45 is made on a [User]. *)
Definition activate_user (now days : Z) (k : string) : M PyResult :=
  if negb (sha1_re_search k) then ret PyFalse else
  r <- view_by_activation_key k ;;
  match r with
  | None => ret PyFalse
  | Some user =>
      expired <- call_activation_key_expired ClsUser now days user ;;
      if negb expired then
        user' <- save (set_is_active (set_activation_key user None) true) ;;
        ret (PyUser user')
      else ret PyNone
  end.

(** The loop of [delete_expired_users] over the rows of [all_users()],
    which are [User] objects. *)
Fixpoint delete_expired_loop (now days : Z) (us : list User) : M unit :=
  match us with
  | [] => ret tt
  | user :: us' =>
      expired <- call_activation_key_expired ClsUser now days user ;;
      _ <- (if expired
            then if negb (is_active user) then delete_doc user else ret tt
            else ret tt) ;;
      delete_expired_loop now days us'
  end.

(** [delete_expired_users()]. *)
Definition delete_expired_users (now days : Z) : M unit :=
  us <- all_users ;; delete_expired_loop now days us.

(* ------------------------------------------------------------------ *)
(** ** Passwords and registration *)

(** Python's [str.split(sep)]. *)
Fixpoint py_split (sep : ascii) (s : string) : list string :=
  match s with
  | EmptyString => [""]
  | String c s' =>
      if Ascii.eqb c sep then "" :: py_split sep s'
      else match py_split sep s' with
           | x :: rest => String c x :: rest
           | [] => [String c ""]
           end
  end.

Definition dollar : ascii := "$"%char.

(** [sep not in s]. *)
Fixpoint no_sep (sep : ascii) (s : string) : bool :=
  match s with
  | EmptyString => true
  | String c s' => negb (Ascii.eqb c sep) && no_sep sep s'
  end.

Section Hashing.

(** [sha_constructor(s).hexdigest()], [md5_constructor(s).hexdigest()] and
    [crypt.crypt(raw, salt)], which the code reaches through Django. *)
Variable sha1_hex : string -> string.
Variable md5_hex : string -> string.
Variable crypt_crypt : string -> string -> string.

(** Django's [get_hexdigest(algorithm, salt, raw_password)]; [None] is its
    [ValueError] for an unknown algorithm. *)
Definition get_hexdigest (algo salt raw : string) : option string :=
  if String.eqb algo "crypt" then Some (crypt_crypt raw salt)
  else if String.eqb algo "md5" then Some (md5_hex (salt ++ raw))
  else if String.eqb algo "sha1" then Some (sha1_hex (salt ++ raw))
  else None.

(** Django's [constant_time_compare]: equal lengths and equal characters. *)
Definition constant_time_compare (a b : string) : bool := String.eqb a b.

(** Django's [check_password(raw_password, enc_password)]:
    [algo, salt, hsh = enc_password.split('$')] (a [ValueError], [None]
    here, unless there are exactly three parts), then
    [constant_time_compare(hsh, get_hexdigest(algo, salt, raw_password))]. *)
Definition check_password (raw enc : string) : option bool :=
  match py_split dollar enc with
  | [algo; salt; hsh] =>
      match get_hexdigest algo salt raw with
      | Some d => Some (constant_time_compare hsh d)
      | None => None
      end
  | _ => None
  end.

(** [User.set_password(raw_password)], with [rnd1] and [rnd2] the two
    values of [str(random.random())]; the result is the new value of
    [self.password]. *)
Definition set_password (rnd1 rnd2 raw : string) : option string :=
  let algo := "sha1" in
  match get_hexdigest algo rnd1 rnd2 with
  | None => None
  | Some d =>
      let salt := substring 0 5 d in
      match get_hexdigest algo salt raw with
      | None => None
      | Some hsh => Some (algo ++ "$" ++ salt ++ "$" ++ hsh)
      end
  end.

(** [User.check_password(raw_password)]. *)
Definition User_check_password (u : User) (raw : string) : option bool :=
  check_password raw (password u).

(** [create_profile(user)], with [rnd] the value of [str(random.random())]:
    the activation key is set on the object only. *)
Definition create_profile (rnd : string) (u : User) : User :=
  let salt := substring 0 5 (sha1_hex rnd) in
  set_activation_key u (Some (sha1_hex (salt ++ username u))).

(** [create_inactive_user(username, email, password, site, send_email)],
    at construction time [utcnow] and with the random draws [rnd1], [rnd2]
    ([set_password]) and [rnd3] ([create_profile]).  The [site] argument
    is only read by the email step, which fails before using it: the name
    [user] on line 72 is unbound, a [NameError]. *)
Definition create_inactive_user (utcnow : Z) (rnd1 rnd2 rnd3 : string)
    (name email_addr raw_password : string) (send_email : bool) : M User :=
  let new_user := set_email (set_username (User_new utcnow) name)
                            (Some email_addr) in
  match set_password rnd1 rnd2 raw_password with
  | None => raise ValueError
  | Some h =>
      let new_user := set_is_active (set_password_field new_user h) false in
      new_user <- save new_user ;;
      let new_user := create_profile rnd3 new_user in
      if send_email then raise NameError else ret new_user
  end.

End Hashing.

(* ------------------------------------------------------------------ *)
(** ** The rest of the user document *)

(** Modelled from the spec: the map function of [users_by_email],
    emitting the composite key [[doc.email, doc.is_active]] (section 4.2:
    the same semantics as [users_by_username], keyed by email). *)
Definition users_by_email_key (u : User) : option string * bool :=
  (email u, is_active u).

Definition rows_with_email (ds : list User) (e : string) (b : bool)
  : list User :=
  filter (fun u => let '(m, a) := users_by_email_key u in
                   match m with
                   | Some m => String.eqb m e && Bool.eqb a b
                   | None => false
                   end) ds.

(** [User.get_user_by_email(email, is_active)], built as [get_user]. *)
Definition get_user_by_email (e : string) (flt : option bool)
  : M (option User) :=
  request (fun w =>
    let rows := match flt with
                | None => (rows_with_email (docs w) e false
                           ++ rows_with_email (docs w) e true)%list
                | Some b => rows_with_email (docs w) e b
                end in
    (first rows, docs w, next_id w)).

(** Django's [UNUSABLE_PASSWORD = '!']. *)
Definition UNUSABLE_PASSWORD : string := "!".

(** [User.set_unusable_password]. *)
Definition set_unusable_password (u : User) : User :=
  set_password_field u UNUSABLE_PASSWORD.

(** [User.has_usable_password]. *)
Definition has_usable_password (u : User) : bool :=
  negb (String.eqb (password u) UNUSABLE_PASSWORD).

(** The characters [unicode.strip()] removes (those below 256). *)
Definition is_py_space (c : ascii) : bool :=
  let n := nat_of_ascii c in
  (Nat.leb 9 n && Nat.leb n 13) || (Nat.leb 28 n && Nat.leb n 32)
  || Nat.eqb n 133 || Nat.eqb n 160.

Fixpoint py_lstrip (s : string) : string :=
  match s with
  | EmptyString => EmptyString
  | String c s' => if is_py_space c then py_lstrip s' else s
  end.

Fixpoint string_rev (s : string) : string :=
  match s with
  | EmptyString => EmptyString
  | String c s' => string_rev s' ++ String c EmptyString
  end.

(** [s.strip()]. *)
Definition py_strip (s : string) : string :=
  string_rev (py_lstrip (string_rev (py_lstrip s))).

(** ['%s' % v] for a property that may be unset ([None]). *)
Definition py_str_opt (v : option string) : string :=
  match v with Some s => s | None => "None" end.

(** [User.get_full_name]:
    [(u'%s %s' % (self.first_name, self.last_name)).strip()]. *)
Definition get_full_name (u : User) : string :=
  py_strip (py_str_opt (first_name u) ++ " " ++ py_str_opt (last_name u)).

(* ------------------------------------------------------------------ *)
(** ** The activation email *)

(** The line boundaries of [unicode.splitlines] (those below 256);
    ["\r\n"] counts as one. *)
Definition is_line_break (c : ascii) : bool :=
  let n := nat_of_ascii c in
  (Nat.leb 10 n && Nat.leb n 13) || (Nat.leb 28 n && Nat.leb n 30)
  || Nat.eqb n 133.

Definition CR : ascii := ascii_of_nat 13.
Definition LF : ascii := ascii_of_nat 10.

(** [s.splitlines()]. *)
Fixpoint splitlines (s : string) : list string :=
  match s with
  | EmptyString => []
  | String c rest =>
      if Ascii.eqb c CR then
        match rest with
        | String d rest' => if Ascii.eqb d LF then "" :: splitlines rest'
                            else "" :: splitlines rest
        | EmptyString => [""]
        end
      else if is_line_break c then "" :: splitlines rest
      else match splitlines rest with
           | [] => [String c ""]
           | x :: xs => String c x :: xs
           end
  end.

(** [''.join(pieces)]. *)
Fixpoint py_join (pieces : list string) : string :=
  match pieces with
  | [] => ""
  | p :: ps => p ++ py_join ps
  end.

(** [s] without its line-break characters. *)
Fixpoint drop_line_breaks (s : string) : string :=
  match s with
  | EmptyString => EmptyString
  | String c s' =>
      if is_line_break c then drop_line_breaks s' else String c (drop_line_breaks s')
  end.

(** A call [send_mail(subject, message, from_email, recipient_list)]. *)
Record Mail := mkMail {
  mail_subject : string;
  mail_message : string;
  mail_from : string;
  mail_to : list (option string)
}.

Section Email.

(** The two templates, [registration/activation_email_subject.txt] and
    [registration/activation_email.txt], rendered on the context
    [activation_key], [expiration_days], [site]. *)
Variable render_subject : option string -> Z -> string -> string.
Variable render_body : option string -> Z -> string -> string.

(** [User.email_user(subject, message, from_email)]. *)
Definition email_user (u : User) (subject message from_email : string) : Mail :=
  mkMail subject message from_email [email u].

(** [RegistrationUser.send_activation_email(site)], with
    [settings.ACCOUNT_ACTIVATION_DAYS = days] and
    [settings.DEFAULT_FROM_EMAIL = from_email]: the mail it sends. *)
Definition send_activation_email (days : Z) (from_email : string)
    (u : User) (site : string) : Mail :=
  let subject := render_subject (activation_key u) days site in
  let subject := py_join (splitlines subject) in
  let message := render_body (activation_key u) days site in
  email_user u subject message from_email.

End Email.

(* ------------------------------------------------------------------ *)
(** ** Concrete inputs *)

(** A stand-in for the SHA-1 hex digest (the digest of the empty string,
    for every input), used to run the code on concrete data. *)
Definition sample_sha1 (_ : string) : string :=
  "da39a3ee5e6b4b0d3255bfef95601890afd80709".

Definition sample_crypt (_ _ : string) : string := "".

Definition empty_world : World := {| docs := []; next_id := 0; accesses := 0 |}.

Definition sample_key : string := "da39a3ee5e6b4b0d3255bfef95601890afd80709".

(** A well-formed key followed by a newline. *)
Definition newline_key : string := (sample_key ++ String LF "")%string.

(** A registered, not yet activated user joined at time [0], as the
    registration workflow means to store it: inactive, with its key. *)
Definition pending_user : User :=
  set_activation_key
    (set_is_active (set_uid (set_username (User_new 0) "alice") (Some 0)) false)
    (Some sample_key).

Definition pending_world : World :=
  {| docs := [pending_user]; next_id := 1; accesses := 0 |}.

(** An activated user (key deleted) joined at time [0]. *)
Definition activated_user : User :=
  set_activation_key (set_is_active pending_user true) None.

(** One day, in seconds; the activation window below is seven days. *)
Definition day : Z := 86400.

(** The cleanup scenario at eight days with a seven-day window: [user_a]
    active with an expired key, [user_b] inactive with an expired key,
    [user_c] inactive, joined at day two, no key. *)
Definition user_a : User :=
  set_is_active (set_uid (set_username (User_new 0) "a") (Some 0)) true.
Definition user_b : User :=
  set_activation_key
    (set_is_active (set_uid (set_username (User_new 0) "b") (Some 1)) false)
    (Some sample_key).
Definition user_c : User :=
  set_is_active (set_uid (set_username (User_new (2 * day)) "c") (Some 2)) false.

Definition cleanup_world : World :=
  {| docs := [user_a; user_b; user_c]; next_id := 3; accesses := 0 |}.

(* ------------------------------------------------------------------ *)
(** ** Lemmas about the model *)

Open Scope list_scope.

(* ------------------------------------------------------------------ *)
(** ** Activation *)

(** C1 (code_bug): [activate_user] never activates anyone.  Whatever the
    database and the key, it returns [False] or raises [AttributeError],
    and never changes the stored documents: the document the view finds is
    a [User], on which [activation_key_expired] does not exist.  The
    pending user of the spec, with its own key, is such a case. *)
Theorem activate_user_never_activates (now days : Z) (k : string) (w : World) :
  (fst (activate_user now days k w) = inr PyFalse \/
   fst (activate_user now days k w) = inl AttributeError) /\
  docs (snd (activate_user now days k w)) = docs w /\
  fst (activate_user 0 7 sample_key pending_world) = inl AttributeError.
Proof.
  split; [|split; [|reflexivity]];
  unfold activate_user;
  (destruct (sha1_re_search k); simpl; [|auto]);
  unfold bind, view_by_activation_key, request; simpl;
  (destruct (first _); simpl; auto).
Qed.

(** C2 (code_bug): [activation_key_expired] and the spec's expiry differ
    in both directions inside the activation window (seven days, now = 0):
    a user still holding its key is expired for the code and not for the
    spec, and an activated user (key deleted) is not expired for the code
    and is for the spec. *)
Theorem activation_key_expired_vs_spec :
  activation_key_expired 0 7 pending_user = true /\
  expired_spec 0 7 pending_user = false /\
  activation_key_expired 0 7 activated_user = false /\
  expired_spec 0 7 activated_user = true.
Proof. repeat split; reflexivity. Qed.

(** C7 (code_bug): [SHA1_RE.search] also accepts forty hex digits
    followed by a newline, which is not a string of the pattern
    [^[a-f0-9]{40}$] read as the whole key: [activate_user] then queries
    the store (one request) before answering [False].  Keys the regular
    expression rejects do get [False] with no request at all. *)
Theorem activate_user_newline_key :
  sha1_pattern_full newline_key = false /\
  sha1_re_search newline_key = true /\
  activate_user 0 7 newline_key pending_world
    = (inr PyFalse, {| docs := docs pending_world; next_id := next_id pending_world;
                       accesses := S (accesses pending_world) |}) /\
  (forall now days k w, sha1_re_search k = false ->
   activate_user now days k w = (inr PyFalse, w)).
Proof.
  split; [reflexivity|]. split; [reflexivity|]. split; [reflexivity|].
  intros now days k w Hk. unfold activate_user. rewrite Hk. reflexivity.
Qed.

(** C5 (code_bug): for a pending user inside the activation window
    (joined at 0, window seven days, now = 0), activating twice with its
    key raises [AttributeError] both times; the first call does not
    return the user. *)
Theorem activate_twice_pending :
  expired_spec 0 7 pending_user = false /\
  fst (activate_user 0 7 sample_key pending_world) = inl AttributeError /\
  fst (activate_user 0 7 sample_key
         (snd (activate_user 0 7 sample_key pending_world))) = inl AttributeError.
Proof. repeat split; reflexivity. Qed.

(** C6 (code_bug): for a key whose user is expired (joined at 0, window
    seven days, now = eight days), [activate_user] leaves the stored
    documents unchanged but raises [AttributeError] instead of returning
    [False]. *)
Theorem activate_expired_raises :
  expired_spec (8 * day) 7 pending_user = true /\
  fst (activate_user (8 * day) 7 sample_key pending_world) = inl AttributeError /\
  docs (snd (activate_user (8 * day) 7 sample_key pending_world))
    = docs pending_world.
Proof. repeat split; reflexivity. Qed.

(* ------------------------------------------------------------------ *)
(** ** Expiry cleanup *)

(** C4 (code_bug): [delete_expired_users] deletes nothing: on an empty
    database it returns, on any other it raises [AttributeError] at the
    first row of [all_users()], a [User] without [activation_key_expired].
    The three-user scenario of the spec is such a case. *)
Theorem delete_expired_users_raises (now days : Z) (w : World) :
  fst (delete_expired_users now days w)
    = match docs w with [] => inr tt | _ :: _ => inl AttributeError end /\
  docs (snd (delete_expired_users now days w)) = docs w /\
  fst (delete_expired_users (8 * day) 7 cleanup_world) = inl AttributeError /\
  docs (snd (delete_expired_users (8 * day) 7 cleanup_world))
    = [user_a; user_b; user_c].
Proof.
  unfold delete_expired_users, bind, all_users, request. simpl.
  destruct (docs w); simpl; repeat split.
Qed.

(* ------------------------------------------------------------------ *)
(** ** Passwords *)

Lemma all_hex_no_sep (s : string) : all_hex s = true -> no_sep dollar s = true.
Proof.
  induction s as [|c s IH]; simpl; [reflexivity|].
  intros H. apply andb_prop in H as [Hc Hs]. rewrite (IH Hs), andb_true_r.
  destruct (Ascii.eqb_spec c dollar) as [->|]; [discriminate Hc | reflexivity].
Qed.

Lemma all_hex_substring (n m : nat) (s : string) :
  all_hex s = true -> all_hex (substring n m s) = true.
Proof.
  revert n m. induction s as [|c s IH]; intros n m H.
  - destruct n, m; reflexivity.
  - simpl in H. apply andb_prop in H as [Hc Hs].
    destruct n as [|n]; simpl; [|apply IH; exact Hs].
    destruct m as [|m]; simpl; [reflexivity|].
    rewrite Hc. apply IH. exact Hs.
Qed.

Lemma py_split_no_sep (c : ascii) (s : string) :
  no_sep c s = true -> py_split c s = [s].
Proof.
  induction s as [|a s IH]; simpl; [reflexivity|].
  intros H. apply andb_prop in H as [Ha Hs]. apply negb_true_iff in Ha.
  rewrite Ha, (IH Hs). reflexivity.
Qed.

Lemma py_split_app (c : ascii) (a b : string) :
  no_sep c a = true -> py_split c (a ++ String c b) = a :: py_split c b.
Proof.
  induction a as [|x a IH]; simpl; intros H.
  - rewrite Ascii.eqb_refl. reflexivity.
  - apply andb_prop in H as [Hx Ha]. apply negb_true_iff in Hx.
    rewrite Hx, (IH Ha). reflexivity.
Qed.

(** C8: whatever the random draws, the hash [set_password] stores is
    [sha1$salt$digest], the digest being SHA-1 of the salt followed by the
    password, and [check_password] accepts the same password against it.
    The one assumption is that SHA-1 hex digests are lowercase hex. *)
Theorem check_password_set_password
    (sha1_hex md5_hex : string -> string) (crypt_crypt : string -> string -> string) :
  (forall s, all_hex (sha1_hex s) = true) ->
  forall rnd1 rnd2 raw : string,
  let salt := substring 0 5 (sha1_hex (rnd1 ++ rnd2)%string) in
  let h := ("sha1$" ++ salt ++ "$" ++ sha1_hex (salt ++ raw))%string in
  set_password sha1_hex md5_hex crypt_crypt rnd1 rnd2 raw = Some h /\
  check_password sha1_hex md5_hex crypt_crypt raw h = Some true.
Proof.
  intros Hhex rnd1 rnd2 raw salt h. split; [reflexivity|].
  unfold check_password, h. simpl.
  rewrite py_split_app
    by (apply all_hex_no_sep, all_hex_substring, Hhex).
  rewrite py_split_no_sep by (apply all_hex_no_sep, Hhex).
  unfold get_hexdigest, constant_time_compare. simpl.
  rewrite String.eqb_refl. reflexivity.
Qed.

Lemma check_password_set_password_witness :
  (forall s, all_hex (sample_sha1 s) = true) /\
  check_password sample_sha1 sample_sha1 sample_crypt "pw"
    "sha1$da39a$da39a3ee5e6b4b0d3255bfef95601890afd80709" = Some true.
Proof.
  split; [intros s; reflexivity|].
  apply (check_password_set_password sample_sha1 sample_sha1 sample_crypt
           (fun s => eq_refl) "r1" "r2" "pw").
Defined.

(* ------------------------------------------------------------------ *)
(** ** Registration *)



(** C10: a [User()] built without arguments is active, not staff and not
    superuser; the document [create_inactive_user] stores (for a non-empty
    username) is inactive, because it sets [is_active] to [False] before
    saving; with the empty username nothing is stored. *)
Theorem user_defaults_and_inactive_creation
    (sha1_hex md5_hex : string -> string) (crypt_crypt : string -> string -> string)
    (utcnow : Z) (rnd1 rnd2 rnd3 name email_addr raw_password : string)
    (send_email : bool) (w : World) :
  is_active (User_new utcnow) = true /\
  is_staff (User_new utcnow) = false /\
  is_superuser (User_new utcnow) = false /\
  let w' := snd (create_inactive_user sha1_hex md5_hex crypt_crypt utcnow
                   rnd1 rnd2 rnd3 name email_addr raw_password send_email w) in
  if String.eqb name "" then docs w' = docs w
  else exists saved,
    docs w' = docs w ++ [saved] /\
    is_active saved = false /\ is_staff saved = false /\
    is_superuser saved = false.
Proof.
  split; [reflexivity|]. split; [reflexivity|]. split; [reflexivity|].
  cbv zeta.
  unfold create_inactive_user, set_password, get_hexdigest. simpl.
  unfold save, check_username, validate, bind, get_user, request, ret, raise, write_doc.
  simpl. destruct (String.eqb name "") eqn:Hn; simpl; [reflexivity|].
  destruct send_email; simpl; (eexists; repeat split).
Qed.

(** C3 (code_bug): registering "alice" twice in a row (without the email
    step) succeeds both times and stores two documents named "alice": a
    document without [_id] passes [check_username] unconditionally. *)
Theorem create_inactive_user_twice_same_name :
  let run := create_inactive_user sample_sha1 sample_sha1 sample_crypt 0
               "r1" "r2" "r3" "alice" "a@x.com" "pw" false in
  match run empty_world with
  | (inr _, w1) =>
      match run w1 with
      | (inr _, w2) => map username (docs w2) = ["alice"; "alice"]
      | (inl _, _) => False
      end
  | (inl _, _) => False
  end.
Proof. vm_compute. reflexivity. Qed.

(* ------------------------------------------------------------------ *)
(** ** Saving *)

(** [save] of a document that has no [_id] yet, whatever the database
    holds (another document of the same username included): after one
    lookup, a document whose required properties are set is appended under
    the next [_id] at revision 1; otherwise [BadValueError] is raised and
    nothing is written. *)
Theorem save_new_document (u : User) (w : World) :
  uid u = None ->
  let u' := set_rev (set_uid u (Some (next_id w))) (Some 1) in
  save u w = if validate u then
               (inr u', {| docs := docs w ++ [u'];
                           next_id := S (next_id w);
                           accesses := S (S (accesses w)) |})
             else
               (inl BadValueError, {| docs := docs w; next_id := next_id w;
                                      accesses := S (accesses w) |}).
Proof.
  intros Hu u'. unfold save, check_username, bind, get_user, request, ret, raise, write_doc.
  simpl. rewrite Hu. destruct (validate u); reflexivity.
Qed.

Lemma save_new_document_witness :
  uid (set_password_field (set_username (User_new 0) "alice") "pw") = None /\
  fst (save (set_password_field (set_username (User_new 0) "alice") "pw") pending_world)
    = inr (set_rev (set_uid (set_password_field (set_username (User_new 0) "alice") "pw")
                            (Some 1)) (Some 1)).
Proof.
  split; [reflexivity|].
  rewrite (save_new_document (set_password_field (set_username (User_new 0) "alice") "pw")
             pending_world eq_refl).
  reflexivity.
Defined.

(* ------------------------------------------------------------------ *)
(** ** Lookups *)

Lemma first_filter_in {A} (p : A -> bool) (l : list A) (x : A) :
  first (filter p l) = Some x -> In x l /\ p x = true.
Proof.
  induction l as [|a l IH]; simpl; [discriminate|].
  destruct (p a) eqn:Hp; simpl.
  - intros H. injection H as <-. auto.
  - intros H. destruct (IH H). auto.
Qed.

Lemma first_filter_none {A} (p : A -> bool) (l : list A) :
  first (filter p l) = None <-> (forall x, In x l -> p x = false).
Proof.
  induction l as [|a l IH]; simpl.
  - split; [intros _ x [] | reflexivity].
  - destruct (p a) eqn:Hp; simpl.
    + split; [discriminate | intros H; rewrite (H a (or_introl eq_refl)) in Hp; discriminate].
    + rewrite IH. split.
      * intros H x [<-|Hx]; auto.
      * intros H x Hx. auto.
Qed.

Lemma first_app {A} (l1 l2 : list A) :
  first (l1 ++ l2) = match first l1 with Some x => Some x | None => first l2 end.
Proof. destruct l1; reflexivity. Qed.

Lemma rows_with_key_filter (ds : list User) (name : string) (b : bool) :
  rows_with_key ds name b
  = filter (fun u => String.eqb (username u) name && Bool.eqb (is_active u) b) ds.
Proof. reflexivity. Qed.

(** [get_user(username, is_active)]: a document it returns is stored,
    has that username and, for [True] or [False], that state; it returns
    [None] exactly when no stored document matches; and with
    [is_active=None] an inactive document of that username, when there is
    one, wins over active ones. *)
Theorem get_user_lookup (name : string) (flt : option bool) (w : World) :
  (forall v, fst (get_user name flt w) = inr (Some v) ->
     In v (docs w) /\ username v = name /\
     match flt with Some b => is_active v = b | None => True end) /\
  (fst (get_user name flt w) = inr None <->
     (forall v, In v (docs w) -> username v = name ->
        match flt with Some b => is_active v <> b | None => False end)) /\
  (flt = None -> forall v, In v (docs w) -> username v = name ->
     is_active v = false ->
     exists v', fst (get_user name flt w) = inr (Some v') /\ is_active v' = false).
Proof.
  unfold get_user, request. simpl.
  split; [|split].
  - intros v H. injection H as H. rewrite ?rows_with_key_filter in H.
    destruct flt as [b|].
    + apply first_filter_in in H as [Hin Hp].
      apply andb_prop in Hp as [Hn Ha].
      apply String.eqb_eq in Hn. apply Bool.eqb_prop in Ha. auto.
    + rewrite first_app in H.
      destruct (first (filter _ (docs w))) as [x|] eqn:Hf.
      * injection H as <-. apply first_filter_in in Hf as [Hin Hp].
        apply andb_prop in Hp as [Hn _]. apply String.eqb_eq in Hn. auto.
      * apply first_filter_in in H as [Hin Hp].
        apply andb_prop in Hp as [Hn _]. apply String.eqb_eq in Hn. auto.
  - destruct flt as [b|].
    + split.
      * intros H v Hin Hn Ha. injection H as H. rewrite ?rows_with_key_filter in H.
        rewrite first_filter_none in H. specialize (H v Hin).
        rewrite Hn, Ha, String.eqb_refl, eqb_reflx in H. discriminate.
      * intros H. f_equal. rewrite rows_with_key_filter. apply first_filter_none. intros v Hin.
        destruct (String.eqb_spec (username v) name) as [Hn|]; [|reflexivity].
        simpl. specialize (H v Hin Hn).
        destruct (is_active v), b; simpl; congruence.
    + split.
      * intros H v Hin Hn. injection H as H. rewrite ?rows_with_key_filter in H. rewrite first_app in H.
        destruct (first (filter _ (docs w))) eqn:Hf; [discriminate|].
        rewrite first_filter_none in Hf, H.
        specialize (Hf v Hin). specialize (H v Hin).
        rewrite Hn, String.eqb_refl in Hf, H.
        destruct (is_active v); discriminate.
      * intros H. f_equal. rewrite !rows_with_key_filter, first_app.
        assert (Hnone : forall b, first (filter (fun u => String.eqb (username u) name
                                          && Bool.eqb (is_active u) b) (docs w)) = None).
        { intros b. apply first_filter_none. intros v Hin.
          destruct (String.eqb_spec (username v) name) as [Hn|];
            [destruct (H v Hin Hn) | reflexivity]. }
        rewrite !Hnone. reflexivity.
  - intros -> v Hin Hn Ha. rewrite !rows_with_key_filter, first_app.
    destruct (first (filter _ (docs w))) as [x|] eqn:Hf.
    + exists x. split; [reflexivity|].
      apply first_filter_in in Hf as [_ Hp]. apply andb_prop in Hp as [_ Hp].
      apply Bool.eqb_prop in Hp. exact Hp.
    + rewrite first_filter_none in Hf. specialize (Hf v Hin).
      rewrite Hn, Ha, String.eqb_refl in Hf. discriminate.
Qed.

Lemma option_eq_dec_string (a b : option string) : {a = b} + {a <> b}.
Proof. decide equality. apply string_dec. Defined.

Lemma rows_with_email_true (e : string) (b : bool) (v : User) :
  (let '(m, a) := users_by_email_key v in
   match m with Some m => String.eqb m e && Bool.eqb a b | None => false end) = true
  <-> email v = Some e /\ is_active v = b.
Proof.
  unfold users_by_email_key. destruct (email v) as [m|]; simpl.
  - rewrite andb_true_iff, String.eqb_eq. split.
    + intros [-> Hb]. apply Bool.eqb_prop in Hb. auto.
    + intros [Hm ->]. injection Hm as ->. split; [reflexivity | apply eqb_reflx].
  - split; [discriminate | intros [H _]; discriminate].
Qed.

(** [get_user_by_email(email, is_active)]: a document it returns is
    stored, has that email and, for [True] or [False], that state; it
    returns [None] exactly when no stored document matches. *)
Theorem get_user_by_email_lookup (e : string) (flt : option bool) (w : World) :
  (forall v, fst (get_user_by_email e flt w) = inr (Some v) ->
     In v (docs w) /\ email v = Some e /\
     match flt with Some b => is_active v = b | None => True end) /\
  (fst (get_user_by_email e flt w) = inr None <->
     (forall v, In v (docs w) -> email v = Some e ->
        match flt with Some b => is_active v <> b | None => False end)).
Proof.
  unfold get_user_by_email, request, rows_with_email. simpl. split.
  - intros v H. injection H as H. destruct flt as [b|].
    + apply first_filter_in in H as [Hin Hp].
      apply rows_with_email_true in Hp as [He Ha]. auto.
    + rewrite first_app in H.
      destruct (first (filter _ (docs w))) as [x|] eqn:Hf.
      * injection H as <-. apply first_filter_in in Hf as [Hin Hp].
        apply rows_with_email_true in Hp as [He _]. auto.
      * apply first_filter_in in H as [Hin Hp].
        apply rows_with_email_true in Hp as [He _]. auto.
  - assert (Hnot : forall b v, email v = Some e -> is_active v <> b ->
              (let '(m, a) := users_by_email_key v in
               match m with Some m => String.eqb m e && Bool.eqb a b
                          | None => false end) = false).
    { intros b v He Ha. apply not_true_iff_false. rewrite rows_with_email_true.
      tauto. }
    assert (Hoff : forall b v, email v <> Some e ->
              (let '(m, a) := users_by_email_key v in
               match m with Some m => String.eqb m e && Bool.eqb a b
                          | None => false end) = false).
    { intros b v He. apply not_true_iff_false. rewrite rows_with_email_true.
      tauto. }
    destruct flt as [b|]; split.
    + intros H v Hin He Ha. injection H as H.
      rewrite first_filter_none in H. specialize (H v Hin).
      apply not_true_iff_false in H. apply H, rows_with_email_true. auto.
    + intros H. f_equal. apply first_filter_none. intros v Hin.
      destruct (option_eq_dec_string (email v) (Some e)) as [He|He].
      * apply Hnot; auto.
      * apply Hoff; auto.
    + intros H v Hin He. injection H as H. rewrite first_app in H.
      destruct (first (filter _ (docs w))) eqn:Hf; [discriminate|].
      rewrite first_filter_none in Hf, H.
      specialize (Hf v Hin). specialize (H v Hin).
      apply not_true_iff_false in Hf, H.
      unfold users_by_email_key in Hf, H.
      destruct (is_active v); rewrite He, String.eqb_refl in Hf, H;
        simpl in Hf, H; congruence.
    + intros H. f_equal. rewrite first_app.
      rewrite (proj2 (first_filter_none _ _)), (proj2 (first_filter_none _ _));
        [reflexivity| |]; intros v Hin; apply Hoff; intros He; exact (H v Hin He).
Qed.

(* ------------------------------------------------------------------ *)
(** ** Unusable passwords *)

(** After [set_unusable_password] the user has no usable password and
    [check_password] raises [ValueError] (the value ['!'] does not split
    into three ['$']-separated parts) for every candidate; after
    [set_password] the password is usable again. *)
Theorem unusable_password_behaviour
    (sha1_hex md5_hex : string -> string) (crypt_crypt : string -> string -> string)
    (u : User) (rnd1 rnd2 raw : string) :
  has_usable_password (set_unusable_password u) = false /\
  User_check_password sha1_hex md5_hex crypt_crypt (set_unusable_password u) raw
    = None /\
  (forall h, set_password sha1_hex md5_hex crypt_crypt rnd1 rnd2 raw = Some h ->
   has_usable_password (set_password_field (set_unusable_password u) h) = true).
Proof.
  split; [reflexivity|]. split; [reflexivity|].
  intros h H. unfold set_password, get_hexdigest in H. simpl in H.
  injection H as <-. reflexivity.
Qed.

(* ------------------------------------------------------------------ *)
(** ** Full names *)

Lemma string_app_assoc (a b c : string) : ((a ++ b) ++ c = a ++ (b ++ c))%string.
Proof. induction a as [|x a IH]; simpl; [reflexivity | now rewrite IH]. Qed.

Lemma string_app_nil (a : string) : (a ++ "")%string = a.
Proof. induction a as [|x a IH]; simpl; [reflexivity | now rewrite IH]. Qed.

Lemma string_rev_app (a b : string) :
  string_rev (a ++ b) = (string_rev b ++ string_rev a)%string.
Proof.
  induction a as [|x a IH]; simpl.
  - now rewrite string_app_nil.
  - rewrite IH. apply string_app_assoc.
Qed.

Lemma string_rev_involutive (a : string) : string_rev (string_rev a) = a.
Proof.
  induction a as [|x a IH]; simpl; [reflexivity|].
  rewrite string_rev_app, IH. reflexivity.
Qed.

(** When the rendered first name starts and the rendered last name ends
    with a non-blank character, [get_full_name] is the two joined by one
    space, with an unset name rendered as ["None"]. *)
Theorem get_full_name_join (u : User) (c d : ascii) (f l : string) :
  py_str_opt (first_name u) = String c f -> is_py_space c = false ->
  py_str_opt (last_name u) = (l ++ String d "")%string -> is_py_space d = false ->
  get_full_name u = (py_str_opt (first_name u) ++ " " ++ py_str_opt (last_name u))%string.
Proof.
  intros Hf Hc Hl Hd. unfold get_full_name, py_strip.
  rewrite Hf, Hl.
  set (s := (String c f ++ " " ++ l ++ String d "")%string).
  assert (Hs1 : s = String c (f ++ " " ++ l ++ String d "")) by reflexivity.
  assert (Hs2 : s = (String c (f ++ " " ++ l) ++ String d "")%string).
  { unfold s. simpl. now rewrite string_app_assoc. }
  assert (Hl1 : py_lstrip s = s) by (rewrite Hs1; simpl; now rewrite Hc).
  assert (Hr : string_rev s = String d (string_rev (String c (f ++ " " ++ l)))).
  { rewrite Hs2, string_rev_app. reflexivity. }
  assert (Hl2 : py_lstrip (string_rev s) = string_rev s)
    by (rewrite Hr; simpl; now rewrite Hd).
  rewrite Hl1, Hl2. apply string_rev_involutive.
Qed.

Lemma get_full_name_join_witness :
  py_str_opt (first_name pending_user) = String "N" "one" /\
  is_py_space "N" = false /\
  py_str_opt (last_name pending_user) = ("Non" ++ String "e" "")%string /\
  is_py_space "e" = false /\
  get_full_name pending_user = "None None".
Proof.
  split; [reflexivity|]. split; [reflexivity|].
  split; [reflexivity|]. split; [reflexivity|].
  rewrite (get_full_name_join pending_user "N" "e" "one" "Non"
             eq_refl eq_refl eq_refl eq_refl).
  reflexivity.
Defined.

(* ------------------------------------------------------------------ *)
(** ** The activation email *)

Lemma py_join_splitlines (s : string) :
  py_join (splitlines s) = drop_line_breaks s.
Proof.
  remember (String.length s) as n eqn:Hn.
  revert s Hn. induction n as [n IH] using lt_wf_ind. intros s Hn.
  destruct s as [|c rest]; [reflexivity|].
  simpl in Hn. cbn [splitlines drop_line_breaks].
  destruct (Ascii.eqb c CR) eqn:Hc.
  - apply Ascii.eqb_eq in Hc. subst c.
    replace (is_line_break CR) with true by reflexivity.
    destruct rest as [|d rest']; [reflexivity|].
    simpl in Hn. destruct (Ascii.eqb d LF) eqn:Hd.
    + apply Ascii.eqb_eq in Hd. subst d.
      replace (is_line_break LF) with true by reflexivity.
      cbn [py_join append drop_line_breaks].
      apply (IH (String.length rest')); [lia | reflexivity].
    + cbn [py_join append].
      apply (IH (String.length (String d rest'))); [simpl; lia | reflexivity].
  - destruct (is_line_break c) eqn:Hb; cbn [py_join append].
    + apply (IH (String.length rest)); [lia | reflexivity].
    + rewrite <- (IH (String.length rest) ltac:(lia) rest eq_refl).
      destruct (splitlines rest) as [|x xs]; reflexivity.
Qed.

Lemma drop_line_breaks_clean (s : string) (c : ascii) :
  In c (list_ascii_of_string (drop_line_breaks s)) -> is_line_break c = false.
Proof.
  induction s as [|x s IH]; simpl; [contradiction|].
  destruct (is_line_break x) eqn:Hx; [exact IH|].
  simpl. intros [<-|H]; [exact Hx | exact (IH H)].
Qed.

(** The activation email goes from [DEFAULT_FROM_EMAIL] to the user's
    own address; its subject is the rendered subject template with every
    line break removed, so it holds none, and its body is the rendered
    body template. *)
Theorem send_activation_email_mail
    (render_subject render_body : option string -> Z -> string -> string)
    (days : Z) (from_email : string) (u : User) (site : string) :
  let m := send_activation_email render_subject render_body days from_email u site in
  mail_subject m = drop_line_breaks (render_subject (activation_key u) days site) /\
  (forall c, In c (list_ascii_of_string (mail_subject m)) -> is_line_break c = false) /\
  mail_message m = render_body (activation_key u) days site /\
  mail_from m = from_email /\ mail_to m = [email u].
Proof.
  cbv zeta. unfold send_activation_email, email_user. simpl.
  rewrite py_join_splitlines.
  split; [reflexivity|]. split; [apply drop_line_breaks_clean|].
  repeat split.
Qed.

(* ------------------------------------------------------------------ *)
(** ** Registration followed by activation *)

Lemma existsb_false_first_filter {A} (p : A -> bool) (l : list A) :
  existsb p l = false -> first (filter p l) = None.
Proof.
  intros H. apply first_filter_none. intros x Hx.
  destruct (p x) eqn:Hp; [|reflexivity].
  assert (existsb p l = true) by (apply existsb_exists; eauto). congruence.
Qed.

Lemma sha1_re_search_hex40 (h : string) :
  String.length h = 40 -> all_hex h = true -> sha1_re_search h = true.
Proof. intros Hl Hh. unfold sha1_re_search. rewrite Hl, Hh. reflexivity. Qed.

(** Registering and then activating with the key [create_inactive_user]
    returns cannot succeed: when SHA-1 digests are 40 lowercase hex
    digits the key passes the format gate, but it was never stored, so the
    lookup (one request) finds no document and [activate_user] returns
    [False], unless some earlier document already held that key.  (The
    username is non-empty: the empty one is refused by validation.) *)
Theorem register_then_activate_not_found
    (sha1_hex md5_hex : string -> string) (crypt_crypt : string -> string -> string)
    (utcnow now days : Z) (rnd1 rnd2 rnd3 name email_addr raw_password : string)
    (w : World) :
  (forall s, String.length (sha1_hex s) = 40 /\ all_hex (sha1_hex s) = true) ->
  String.eqb name "" = false ->
  let k := sha1_hex (substring 0 5 (sha1_hex rnd3) ++ name)%string in
  existsb (fun v => match activation_key v with
                    | Some k' => String.eqb k' k | None => false end) (docs w) = false ->
  match create_inactive_user sha1_hex md5_hex crypt_crypt utcnow rnd1 rnd2 rnd3
          name email_addr raw_password false w with
  | (inr u, w1) =>
      activation_key u = Some k /\
      activate_user now days k w1
        = (inr PyFalse, {| docs := docs w1; next_id := next_id w1;
                           accesses := S (accesses w1) |})
  | (inl _, _) => False
  end.
Proof.
  intros Hsha Hname k Hnone.
  unfold create_inactive_user, set_password, get_hexdigest. simpl.
  unfold save, check_username, validate, bind, get_user, request, ret, write_doc.
  simpl. rewrite Hname. simpl.
  split; [reflexivity|].
  destruct (Hsha (substring 0 5 (sha1_hex rnd3) ++ name)%string) as [Hl Hh].
  unfold activate_user. fold k in Hl, Hh.
  rewrite (sha1_re_search_hex40 k Hl Hh). simpl.
  unfold bind, view_by_activation_key, request, users_by_activation_key_key, ret.
  simpl. rewrite filter_app, first_app, (existsb_false_first_filter _ _ Hnone).
  reflexivity.
Qed.

Lemma register_then_activate_not_found_witness :
  (forall s, String.length (sample_sha1 s) = 40 /\ all_hex (sample_sha1 s) = true) /\
  String.eqb "alice" "" = false /\
  fst (activate_user 0 7 (sample_sha1 (substring 0 5 (sample_sha1 "r3") ++ "alice"))
         (snd (create_inactive_user sample_sha1 sample_sha1 sample_crypt 0
                 "r1" "r2" "r3" "alice" "a@x.com" "pw" false empty_world)))
    = inr PyFalse.
Proof.
  split; [intros s; split; reflexivity|]. split; [reflexivity|].
  pose proof (register_then_activate_not_found sample_sha1 sample_sha1 sample_crypt
                0 0 7 "r1" "r2" "r3" "alice" "a@x.com" "pw" empty_world
                (fun s => conj eq_refl eq_refl) eq_refl eq_refl) as H.
  destruct (create_inactive_user _ _ _ _ _ _ _ _ _ _ _ _) as [[e|u] w1];
    [contradiction|].
  destruct H as [_ H]. cbn [snd]. rewrite H. reflexivity.
Defined.

(* ------------------------------------------------------------------ *)
(** ** Expiry over time *)

(** Once [activation_key_expired] holds, it holds at every later time. *)
Theorem activation_key_expired_later (now now' days : Z) (u : User) :
  (now <= now')%Z ->
  activation_key_expired now days u = true ->
  activation_key_expired now' days u = true.
Proof.
  unfold activation_key_expired. intros Hle.
  destruct (key_truthy (activation_key u)); simpl; [reflexivity|].
  rewrite !Z.leb_le. lia.
Qed.

Lemma activation_key_expired_later_witness :
  (0 <= 9 * day)%Z /\ activation_key_expired (8 * day) 7 activated_user = true /\
  activation_key_expired (9 * day) 7 activated_user = true.
Proof.
  split; [vm_compute; discriminate|]. split; [reflexivity|].
  apply (activation_key_expired_later (8 * day) (9 * day) 7 activated_user);
    [vm_compute; discriminate | reflexivity].
Defined.
